(** * Structured error classes of [python/tvm/error.py]

    The module is a sequence of class statements, most of them decorated
    with [register_error].  The development executes these statements over
    a class environment (bases and method resolution order, as the host
    language computes them) and an error registry, and then studies the
    two-axis classification (domain category and facet) of the registered
    kinds. *)

From stdpp Require Import gmap strings list fin_maps.

Local Open Scope string_scope.

(** ** Outcomes of fallible steps *)

Inductive py_error :=
  | NameError (name : string)       (* a base class name is not bound *)
  | MroConflict (name : string)     (* TypeError: no consistent MRO *)
  | DuplicateKind (kind : string).  (* registration conflict *)

Inductive result (A : Type) :=
  | Ok (a : A)
  | Err (e : py_error).
Arguments Ok {A} a.
Arguments Err {A} e.

Definition bind {A B} (r : result A) (f : A -> result B) : result B :=
  match r with
  | Ok a => f a
  | Err e => Err e
  end.

Notation "'try' x ':=' r 'in' k" := (bind r (fun x => k))
  (at level 10, x name, r at level 100, k at level 200).

Module Py.

(** ** Classes of the host language *)

(** A class statement [@register_error? class name(bases): ...]. *)
Record class_def := ClassDef {
  cd_name : string;
  cd_bases : list string;
  cd_registered : bool
}.

(** A class object: its name, its direct bases, and its [__mro__]. *)
Record class_obj := ClassObj {
  c_name : string;
  c_bases : list string;
  c_mro : list string
}.

(** *** C3 linearisation, as [type.__new__] computes [__mro__] *)

Definition in_tail (c : string) (l : list string) : bool :=
  match l with
  | [] => false
  | _ :: t => bool_decide (c ∈ t)
  end.

(** A head is good when it occurs in the tail of no sequence. *)
Definition good_head (seqs : list (list string)) (c : string) : bool :=
  forallb (fun l => negb (in_tail c l)) seqs.

Fixpoint find_head (all seqs : list (list string)) : option string :=
  match seqs with
  | [] => None
  | [] :: rest => find_head all rest
  | (c :: _) :: rest => if good_head all c then Some c else find_head all rest
  end.

Definition drop_head (c : string) (l : list string) : list string :=
  match l with
  | h :: t => if bool_decide (h = c) then t else l
  | [] => []
  end.

Definition nonempty (l : list string) : bool :=
  match l with [] => false | _ => true end.

Definition total_length (seqs : list (list string)) : nat :=
  list_sum (map length seqs).

(** [merge_fuel n seqs]: [None] when the fuel runs out, [Some None] when no
    good head exists (the class statement raises TypeError), and
    [Some (Some l)] for the merged linearisation. *)
Fixpoint merge_fuel (n : nat) (seqs : list (list string))
  : option (option (list string)) :=
  match List.filter nonempty seqs with
  | [] => Some (Some [])
  | live =>
    match n with
    | O => None
    | S n' =>
      match find_head live live with
      | None => Some None
      | Some c =>
        match merge_fuel n' (map (drop_head c) live) with
        | Some (Some l) => Some (Some (c :: l))
        | other => other
        end
      end
    end
  end.

Definition merge (seqs : list (list string)) : option (option (list string)) :=
  merge_fuel (total_length seqs) seqs.

(** *** The class environment *)

Definition lookup_class (env : gmap string class_obj) (name : string)
  : result class_obj :=
  match env !! name with
  | Some c => Ok c
  | None => Err (NameError name)
  end.

Fixpoint lookup_classes (env : gmap string class_obj) (names : list string)
  : result (list class_obj) :=
  match names with
  | [] => Ok []
  | n :: rest =>
    try c := lookup_class env n in
    try cs := lookup_classes env rest in
    Ok (c :: cs)
  end.

(** Creating the class object of [class name(bases)]:
    [mro = name :: merge (map mro bases ++ [bases])].  Every statement of
    the module lists its bases, and their instance layouts agree, so the
    implicit [object] base and the layout check are not modelled. *)
Definition make_class (env : gmap string class_obj) (name : string)
  (bases : list string) : result class_obj :=
  try bs := lookup_classes env bases in
  match merge (map c_mro bs ++ [bases]) with
  | Some (Some l) => Ok (ClassObj name bases (name :: l))
  | _ => Err (MroConflict name)
  end.

(** [issubclass(c, d)]: [d] occurs in the MRO of [c]. *)
Definition issubclass (env : gmap string class_obj) (c d : string) : bool :=
  match env !! c with
  | Some co => bool_decide (d ∈ c_mro co)
  | None => false
  end.

(** The built-in exception classes the module refers to, directly or
    through a base, in definition order. *)
Definition object_class : class_obj := ClassObj "object" [] ["object"].

Definition builtin_defs : list (string * list string) :=
  [ ("BaseException", ["object"]);
    ("Exception", ["BaseException"]);
    ("RuntimeError", ["Exception"]);
    ("NotImplementedError", ["RuntimeError"]);
    ("AttributeError", ["Exception"]);
    ("OSError", ["Exception"]);
    ("TimeoutError", ["OSError"]) ].

Fixpoint define_all (env : gmap string class_obj)
  (defs : list (string * list string)) : result (gmap string class_obj) :=
  match defs with
  | [] => Ok env
  | (name, bases) :: rest =>
    try c := make_class env name bases in
    define_all (<[name := c]> env) rest
  end.

Definition builtins : gmap string class_obj :=
  match define_all {[ "object" := object_class ]} builtin_defs with
  | Ok env => env
  | Err _ => ∅
  end.

End Py.

(** ** The statements of [error.py], in source order *)

(** The class statements of the module.  Its first statement,
    [from tvm.ffi import register_error], binds the decorator, which is not
    a class; it appears here as the [cd_registered] flag of the statements
    it decorates. *)

Definition error_py : list Py.class_def :=
  [ Py.ClassDef "TVMError" ["RuntimeError"] false;
    Py.ClassDef "InternalError" ["TVMError"] true;
    Py.ClassDef "RPCError" ["TVMError"] true;
    Py.ClassDef "RPCSessionTimeoutError" ["RPCError"; "TimeoutError"] true;
    Py.ClassDef "OpError" ["TVMError"] true;
    Py.ClassDef "OpNotImplemented" ["OpError"; "NotImplementedError"] true;
    Py.ClassDef "OpAttributeRequired" ["OpError"; "AttributeError"] true;
    Py.ClassDef "OpAttributeInvalid" ["OpError"; "AttributeError"] true;
    Py.ClassDef "OpAttributeUnImplemented" ["OpError"; "NotImplementedError"] true;
    Py.ClassDef "DiagnosticError" ["TVMError"] true ].

(** ** Variant descriptors and the error registry *)

(** The closed enumeration of facets. *)
Inductive Facet :=
  | Timeout
  | NotImplemented
  | AttributeMissing
  | AttributeInvalid
  | NoFacet.

#[global] Instance Facet_eq_dec : EqDecision Facet.
Proof. solve_decision. Defined.

Definition Facet_to_nat (f : Facet) : nat :=
  match f with
  | Timeout => 0
  | NotImplemented => 1
  | AttributeMissing => 2
  | AttributeInvalid => 3
  | NoFacet => 4
  end.

Definition Facet_of_nat (n : nat) : option Facet :=
  match n with
  | 0 => Some Timeout
  | 1 => Some NotImplemented
  | 2 => Some AttributeMissing
  | 3 => Some AttributeInvalid
  | 4 => Some NoFacet
  | _ => None
  end.

#[global] Instance Facet_countable : Countable Facet.
Proof.
  apply (inj_countable Facet_to_nat Facet_of_nat).
  intros []; reflexivity.
Defined.

Definition all_facets : list Facet :=
  [Timeout; NotImplemented; AttributeMissing; AttributeInvalid; NoFacet].

(** The generic exception class of the host language that a facet stands
    for.  The source has three generic bases: [TimeoutError],
    [NotImplementedError] and [AttributeError]; [OpAttributeRequired] and
    [OpAttributeInvalid] both inherit the one [AttributeError], so both
    attribute facets stand for that class.  [NoFacet] stands for no class. *)
Definition facet_base (f : Facet) : option string :=
  match f with
  | Timeout => Some "TimeoutError"
  | NotImplemented => Some "NotImplementedError"
  | AttributeMissing => Some "AttributeError"
  | AttributeInvalid => Some "AttributeError"
  | NoFacet => None
  end.

Record descriptor := Descriptor {
  kind : string;
  domain_parent : option string;
  facets : gset Facet
}.

#[global] Instance descriptor_eq_dec : EqDecision descriptor.
Proof. solve_decision. Defined.

Module Registry.

(** Modelled from the spec: the body of [register_error] lives in [tvm.ffi],
    outside this module.  [register] fails with [DuplicateKind] when the
    kind is present with a different descriptor, is a no-op when the
    identical descriptor is present, and adds the descriptor otherwise.
    The registry is threaded as state: the second component is the
    registry after the call. *)
Definition register (d : descriptor) (reg : gmap string descriptor)
  : result unit * gmap string descriptor :=
  match reg !! kind d with
  | None => (Ok tt, <[kind d := d]> reg)
  | Some d' =>
    if decide (d' = d) then (Ok tt, reg)
    else (Err (DuplicateKind (kind d)), reg)
  end.

(** Modelled from the spec: [lookup] is a pure read; unknown kinds give
    [None]. *)
Definition lookup (k : string) (reg : gmap string descriptor)
  : option descriptor := reg !! k.

End Registry.

(** ** The registration surface: from a class to its descriptor *)

(** Modelled from the spec: the decorator [register_error] is imported from
    [tvm.ffi]; the descriptor it registers for a class is given by the
    bootstrap API: the kind is the class name, the domain parent is the
    domain error base the class inherits (a base that is itself a
    registered kind), and the facets are derived from the generic bases. *)
Definition class_domain_parent (reg : gmap string descriptor)
  (bases : list string) : option string :=
  head (List.filter (fun b => bool_decide (is_Some (reg !! b))) bases).

Definition carries (bases : list string) (f : Facet) : bool :=
  match facet_base f with
  | Some b => bool_decide (b ∈ bases)
  | None => false
  end.

Definition class_facets (bases : list string) : gset Facet :=
  list_to_set (List.filter (carries bases) all_facets).

Definition descriptor_of (reg : gmap string descriptor) (c : Py.class_obj)
  : descriptor :=
  Descriptor (Py.c_name c) (class_domain_parent reg (Py.c_bases c))
             (class_facets (Py.c_bases c)).

Definition register_error (c : Py.class_obj) (reg : gmap string descriptor)
  : result unit * gmap string descriptor :=
  Registry.register (descriptor_of reg c) reg.

(** ** Executing the module *)

Record state := State {
  classes : gmap string Py.class_obj;
  registry : gmap string descriptor
}.

Definition initial_state : state := State Py.builtins ∅.

(** One class statement: build the class object, apply the decorator if
    there is one, then bind the name. *)
Definition exec_class (st : state) (d : Py.class_def) : result state :=
  try c := Py.make_class (classes st) (Py.cd_name d) (Py.cd_bases d) in
  if Py.cd_registered d then
    match register_error c (registry st) with
    | (Ok _, reg') => Ok (State (<[Py.cd_name d := c]> (classes st)) reg')
    | (Err e, _) => Err e
    end
  else Ok (State (<[Py.cd_name d := c]> (classes st)) (registry st)).

Fixpoint exec_module (st : state) (ds : list Py.class_def) : result state :=
  match ds with
  | [] => Ok st
  | d :: rest =>
    try st' := exec_class st d in
    exec_module st' rest
  end.

(** The state once [error.py] has been imported. *)
Definition loaded : state :=
  match exec_module initial_state error_py with
  | Ok st => st
  | Err _ => initial_state
  end.

Definition tvm_registry : gmap string descriptor := registry loaded.
Definition tvm_classes : gmap string Py.class_obj := classes loaded.

(** ** The boundary codec *)

Definition structured_data := list Byte.byte.

(** A raised error instance. *)
Record raised_error := Raise {
  err_kind : string;
  err_message : string;
  err_payload : option structured_data
}.

(** The three-field transfer record. *)
Record transfer := Transfer {
  t_kind : string;
  t_message : string;
  t_payload : option structured_data
}.

(** The host-side error value. *)
Inductive error_value :=
  | Concrete (d : descriptor) (message : string)
             (payload : option structured_data)
  | Fallback (raw_kind : string) (message : string).

(** Modelled from the spec: the codec is part of [tvm.ffi].  [encode]
    copies the three fields; [decode] resolves the kind in the registry
    and falls back to a generic value that keeps the raw kind and the
    message. *)
Definition encode (e : raised_error) : transfer :=
  Transfer (err_kind e) (err_message e) (err_payload e).

Definition decode (reg : gmap string descriptor) (t : transfer)
  : error_value :=
  match Registry.lookup (t_kind t) reg with
  | Some d => Concrete d (t_message t) (t_payload t)
  | None => Fallback (t_kind t) (t_message t)
  end.

(** What a handler on the receiving side gets for a raised error. *)
Definition caught (reg : gmap string descriptor) (e : raised_error)
  : error_value := decode reg (encode e).

Definition value_kind (v : error_value) : string :=
  match v with
  | Concrete d _ _ => kind d
  | Fallback k _ => k
  end.

Definition value_message (v : error_value) : string :=
  match v with
  | Concrete _ m _ => m
  | Fallback _ m => m
  end.

(** ** The matching layer *)

(** The kind of [d] followed by its ancestors along [domain_parent]. *)
Fixpoint ancestors (fuel : nat) (reg : gmap string descriptor)
  (d : descriptor) : list string :=
  kind d ::
  match domain_parent d with
  | None => []
  | Some p =>
    match fuel with
    | O => [p]
    | S n =>
      match reg !! p with
      | Some dp => ancestors n reg dp
      | None => [p]
      end
    end
  end.

(** Modelled from the spec: by-category matching is true if the kind of
    the value's descriptor, or any ancestor via [domain_parent], equals
    the category. *)
Definition by_category (reg : gmap string descriptor) (v : error_value)
  (category : string) : bool :=
  match v with
  | Concrete d _ _ => bool_decide (category ∈ ancestors (size reg) reg d)
  | Fallback _ _ => false
  end.

(** Modelled from the spec: by-facet matching is true if the facet is in
    the descriptor's facet set. *)
Definition by_facet (v : error_value) (f : Facet) : bool :=
  match v with
  | Concrete d _ _ => bool_decide (f ∈ facets d)
  | Fallback _ _ => false
  end.

Definition exact_kind (v : error_value) (k : string) : bool :=
  bool_decide (value_kind v = k).

(** The host language's own matching: [except C] catches an instance of
    class [err_kind e] when [C] is in that class's MRO. *)
Definition except_catches (env : gmap string Py.class_obj) (e : raised_error)
  (C : string) : bool :=
  Py.issubclass env (err_kind e) C.

(** The names of the classes passed to [register_error]. *)
Definition registered_names (ds : list Py.class_def) : list string :=
  map Py.cd_name (List.filter Py.cd_registered ds).

(** The registered kinds in the MRO of class [k], in MRO order. *)
Definition registered_in_mro (env : gmap string Py.class_obj)
  (reg : gmap string descriptor) (k : string) : list string :=
  match env !! k with
  | Some co =>
    List.filter (λ c, bool_decide (is_Some (reg !! c))) (Py.c_mro co)
  | None => []
  end.

(** The number of levels of the domain hierarchy at and above [d]. *)
Definition domain_depth (reg : gmap string descriptor) (d : descriptor) : nat :=
  length (ancestors (size reg) reg d).

Definition is_ok {A} (r : result A) : bool :=
  match r with Ok _ => true | Err _ => false end.

(** Every entry of the registry is stored under its own kind. *)
Definition well_keyed (reg : gmap string descriptor) : Prop :=
  ∀ k d, reg !! k = Some d → kind d = k.

(** The domain parent of [d], if any, is a registered root. *)
Definition parent_is_root (reg : gmap string descriptor) (d : descriptor)
  : bool :=
  match domain_parent d with
  | None => true
  | Some p =>
    match reg !! p with
    | Some dp => bool_decide (domain_parent dp = None)
    | None => false
    end
  end.

(** ** Views of the module's class statements *)

(** The names of the built-in classes the module builds on. *)
Definition builtin_classes : list string :=
  "object" :: map fst Py.builtin_defs.

(** The names of all the classes the statements define. *)
Definition module_classes (ds : list Py.class_def) : list string :=
  map Py.cd_name ds.

(** The domain roots: the registered classes whose only base is
    [TVMError]. *)
Definition domain_roots (ds : list Py.class_def) : list string :=
  map Py.cd_name
    (List.filter
       (λ d, Py.cd_registered d && bool_decide (Py.cd_bases d = ["TVMError"]))
       ds).

(** The leaves: the classes that no statement names as a base. *)
Definition leaf_classes (ds : list Py.class_def) : list string :=
  map Py.cd_name
    (List.filter
       (λ d, negb (existsb
                     (λ d', bool_decide (Py.cd_name d ∈ Py.cd_bases d')) ds))
       ds).

(** * Properties *)

(** ** The linearisation never runs out of fuel *)

Section MergeTotal.
Import Py.

Lemma total_length_filter seqs :
  total_length (List.filter nonempty seqs) = total_length seqs.
Proof.
  unfold total_length.
  induction seqs as [|[|c t] seqs IH]; simpl; [reflexivity | exact IH |].
  by rewrite IH.
Qed.

Lemma find_head_head all seqs c :
  find_head all seqs = Some c → ∃ t, (c :: t) ∈ seqs.
Proof.
  induction seqs as [|[|h t] seqs IH]; simpl; [discriminate | |].
  - intros H. destruct (IH H) as [t Ht]. exists t. by apply list_elem_of_further.
  - destruct (good_head all h).
    + intros [= ->]. exists t. apply list_elem_of_here.
    + intros H. destruct (IH H) as [t' Ht]. exists t'. by apply list_elem_of_further.
Qed.

Lemma length_drop_head c l : (length (drop_head c l) ≤ length l)%nat.
Proof. destruct l as [|h t]; simpl; [lia|]. case_bool_decide; simpl; lia. Qed.

Lemma total_length_drop c seqs :
  (total_length (map (drop_head c) seqs) ≤ total_length seqs)%nat.
Proof.
  unfold total_length. induction seqs as [|l seqs IH]; simpl; [lia|].
  pose proof (length_drop_head c l). lia.
Qed.

Lemma total_length_drop_lt c t seqs :
  (c :: t) ∈ seqs →
  (total_length (map (drop_head c) seqs) < total_length seqs)%nat.
Proof.
  induction seqs as [|l seqs IH]; intros Hin.
  - by apply elem_of_nil in Hin.
  - apply elem_of_cons in Hin as [<-|Hin].
    + pose proof (total_length_drop c seqs) as Hle.
      unfold total_length in *. simpl. rewrite bool_decide_eq_true_2 by done.
      lia.
    + specialize (IH Hin). pose proof (length_drop_head c l).
      unfold total_length in *. simpl. lia.
Qed.

Lemma merge_fuel_enough n : ∀ seqs,
  (total_length seqs ≤ n)%nat → merge_fuel n seqs ≠ None.
Proof.
  induction n as [|n IH]; intros seqs Hn.
  - cbn [merge_fuel].
    pose proof (total_length_filter seqs) as Hf.
    destruct (List.filter nonempty seqs) as [|l live] eqn:E; [discriminate|].
    assert (l ∈ List.filter nonempty seqs) as Hl by (rewrite E; apply list_elem_of_here).
    apply list_elem_of_In, filter_In in Hl as [_ Hl].
    destruct l; [discriminate|]. unfold total_length in *. simpl in Hf. lia.
  - cbn [merge_fuel].
    pose proof (total_length_filter seqs) as Hf.
    destruct (List.filter nonempty seqs) as [|l live] eqn:E; [discriminate|].
    destruct (find_head (l :: live) (l :: live)) as [c|] eqn:F; [|discriminate].
    apply find_head_head in F as [t Ht].
    apply total_length_drop_lt in Ht.
    specialize (IH (map (drop_head c) (l :: live)) ltac:(lia)).
    destruct (merge_fuel n (map (drop_head c) (l :: live))) as [[?|]|];
      [discriminate | discriminate | done].
Qed.

Lemma merge_total seqs : merge seqs ≠ None.
Proof. apply merge_fuel_enough. lia. Qed.

End MergeTotal.

(** ** Importing the module succeeds *)

Lemma load_ok : exec_module initial_state error_py = Ok loaded.
Proof.
  assert (is_ok (exec_module initial_state error_py) = true) as H
    by (vm_compute; reflexivity).
  unfold loaded.
  destruct (exec_module initial_state error_py); [reflexivity | discriminate].
Qed.

(** Every entry of the loaded registry satisfies a checked predicate. *)
Lemma registry_forall (P : string → descriptor → bool) :
  bool_decide (map_Forall (λ k d, P k d = true) tvm_registry) = true →
  ∀ k d, tvm_registry !! k = Some d → P k d = true.
Proof.
  intros H k d Hk. apply bool_decide_eq_true_1 in H. exact (H k d Hk).
Qed.

Lemma names_forall (P : string → bool) (l : list string) :
  forallb P l = true → ∀ k, k ∈ l → P k = true.
Proof.
  intros H k Hk. rewrite forallb_forall in H.
  apply H. by apply list_elem_of_In.
Qed.

Ltac evaluate := vm_compute; repeat split; reflexivity.

(** ** The registry is keyed by kind *)

Lemma register_well_keyed d reg :
  well_keyed reg → well_keyed (Registry.register d reg).2.
Proof.
  intros Hreg. unfold Registry.register.
  destruct (reg !! kind d) as [d'|] eqn:E.
  - destruct (decide (d' = d)); exact Hreg.
  - simpl. intros k x Hk.
    destruct (decide (kind d = k)) as [<-|Hne].
    + rewrite lookup_insert_eq in Hk. by inversion Hk.
    + rewrite lookup_insert_ne in Hk by done. by apply Hreg.
Qed.

Lemma exec_class_well_keyed st d st' :
  exec_class st d = Ok st' → well_keyed (registry st) → well_keyed (registry st').
Proof.
  unfold exec_class, bind.
  destruct (Py.make_class _ _ _) as [c|]; [|discriminate].
  destruct (Py.cd_registered d).
  - unfold register_error.
    pose proof (register_well_keyed (descriptor_of (registry st) c) (registry st)) as Hk.
    destruct (Registry.register _ _) as [[[]|e] reg']; [|discriminate].
    intros [= <-] Hreg. simpl in *. auto.
  - intros [= <-] Hreg. exact Hreg.
Qed.

Lemma exec_module_well_keyed ds : ∀ st st',
  exec_module st ds = Ok st' → well_keyed (registry st) → well_keyed (registry st').
Proof.
  induction ds as [|d ds IH]; intros st st'; simpl.
  - by intros [= <-].
  - unfold bind. destruct (exec_class st d) as [st1|] eqn:E; [|discriminate].
    intros Hrest Hreg. eapply IH; [exact Hrest|].
    eapply exec_class_well_keyed; eauto.
Qed.

Lemma tvm_registry_well_keyed : well_keyed tvm_registry.
Proof.
  eapply (exec_module_well_keyed _ _ _ load_ok).
  intros k d Hk. simpl in Hk. by rewrite lookup_empty in Hk.
Qed.

Lemma caught_registered reg k d m p :
  reg !! k = Some d → caught reg (Raise k m p) = Concrete d m p.
Proof. intros H. unfold caught, decode, encode, Registry.lookup. simpl. by rewrite H. Qed.

(** A name that no decorated class of the module bears is left as it was
    in the registry, whatever the state the module is imported in. *)
Lemma register_other d reg k :
  k ≠ kind d → (Registry.register d reg).2 !! k = reg !! k.
Proof.
  intros Hne. unfold Registry.register.
  destruct (reg !! kind d) as [d0|].
  - by destruct (decide (d0 = d)).
  - simpl. by rewrite lookup_insert_ne.
Qed.

Lemma exec_class_other st d st' k :
  exec_class st d = Ok st' →
  (Py.cd_registered d = true → k ≠ Py.cd_name d) →
  registry st' !! k = registry st !! k.
Proof.
  unfold exec_class, bind, Py.make_class, bind.
  destruct (Py.lookup_classes _ _) as [bs|]; [|discriminate].
  destruct (Py.merge _) as [[l|]|]; [|discriminate|discriminate].
  destruct (Py.cd_registered d).
  - unfold register_error.
    pose proof (register_other
      (descriptor_of (registry st) (Py.ClassObj (Py.cd_name d) (Py.cd_bases d)
                                                (Py.cd_name d :: l)))
      (registry st) k) as Ho.
    destruct (Registry.register _ _) as [[[]|e] reg']; [|discriminate].
    intros [= <-] Hne. simpl in *. apply Ho. by apply Hne.
  - by intros [= <-] _.
Qed.

Lemma exec_module_other ds k : ∀ st st',
  exec_module st ds = Ok st' → k ∉ registered_names ds →
  registry st' !! k = registry st !! k.
Proof.
  induction ds as [|d ds IH]; intros st st'; simpl.
  - by intros [= <-] _.
  - unfold bind. destruct (exec_class st d) as [st1|] eqn:E; [|discriminate].
    intros Hrest Hk. unfold registered_names in Hk. simpl in Hk.
    destruct (Py.cd_registered d) eqn:R.
    + simpl in Hk. apply not_elem_of_cons in Hk as [Hne Hk].
      rewrite (IH _ _ Hrest Hk). apply (exec_class_other _ _ _ _ E). by intros _.
    + rewrite (IH _ _ Hrest Hk). apply (exec_class_other _ _ _ _ E).
      rewrite R. discriminate.
Qed.

(** In particular the import never registers TVMError. *)
Lemma import_leaves_TVMError st st' :
  exec_module st error_py = Ok st' →
  registry st' !! "TVMError" = registry st !! "TVMError".
Proof.
  intros H. apply (exec_module_other _ _ _ _ H).
  apply (bool_decide_unpack _). vm_compute. exact I.
Qed.

(** ** The two axes against the class hierarchy *)

Lemma ancestors_checked :
  bool_decide (map_Forall
    (λ (k : string) d,
       bool_decide (ancestors (size tvm_registry) tvm_registry d
                    = registered_in_mro tvm_classes tvm_registry k) = true)
    tvm_registry) = true.
Proof. vm_compute. reflexivity. Qed.

(** The ancestor chain of a registered kind is the list of registered
    kinds in the MRO of its class. *)
Lemma ancestors_registered_in_mro k d :
  tvm_registry !! k = Some d →
  ancestors (size tvm_registry) tvm_registry d
  = registered_in_mro tvm_classes tvm_registry k.
Proof.
  intros Hk. pose proof (registry_forall _ ancestors_checked k d Hk) as H.
  by apply bool_decide_eq_true_1 in H.
Qed.

(** For a registered kind and a registered category, by-category matching
    is what [except category] does. *)
Lemma by_category_except k d m p category :
  tvm_registry !! k = Some d →
  is_Some (tvm_registry !! category) →
  by_category tvm_registry (caught tvm_registry (Raise k m p)) category
  = except_catches tvm_classes (Raise k m p) category.
Proof.
  intros Hk Hcat. rewrite (caught_registered _ _ _ _ _ Hk).
  unfold by_category, except_catches, Py.issubclass. cbn [err_kind].
  rewrite (ancestors_registered_in_mro _ _ Hk). unfold registered_in_mro.
  destruct (tvm_classes !! k) as [co|].
  - apply bool_decide_ext. rewrite !list_elem_of_In, filter_In.
    split; [by intros [? _]|]. intros Hin. split; [exact Hin|].
    by apply bool_decide_eq_true_2.
  - apply bool_decide_eq_false_2. apply not_elem_of_nil.
Qed.

Lemma facets_checked :
  bool_decide (map_Forall
    (λ (k : string) d,
       forallb (λ f, eqb (bool_decide (f ∈ facets d))
                         match facet_base f with
                         | Some b => Py.issubclass tvm_classes k b
                         | None => false
                         end) all_facets = true)
    tvm_registry) = true.
Proof. vm_compute. reflexivity. Qed.

(** For a registered kind, by-facet matching on [f] is what [except] on
    the generic class of [f] does. *)
Lemma by_facet_except k d m p f :
  tvm_registry !! k = Some d →
  by_facet (caught tvm_registry (Raise k m p)) f
  = match facet_base f with
    | Some b => except_catches tvm_classes (Raise k m p) b
    | None => false
    end.
Proof.
  intros Hk. rewrite (caught_registered _ _ _ _ _ Hk).
  pose proof (registry_forall _ facets_checked k d Hk) as H.
  rewrite forallb_forall in H.
  assert (In f all_facets) as Hf by (destruct f; simpl; tauto).
  apply H, eqb_prop in Hf. exact Hf.
Qed.

(** ** By-category matching *)

(** C2: every raised error of kind OpNotImplemented matches category
    OpError and does not match category RPCError, both along the
    [domain_parent] chain of its descriptor and for the host language's
    [except] clause on the classes themselves. *)
Theorem C2_OpNotImplemented_by_category
  (m : string) (p : option structured_data) :
  let e := Raise "OpNotImplemented" m p in
  by_category tvm_registry (caught tvm_registry e) "OpError" = true
  ∧ by_category tvm_registry (caught tvm_registry e) "RPCError" = false
  ∧ except_catches tvm_classes e "OpError" = true
  ∧ except_catches tvm_classes e "RPCError" = false.
Proof. evaluate. Qed.

(** ** By-facet matching *)

(** C3: every raised error of kind RPCSessionTimeoutError matches facet
    Timeout, and every raised error of kind OpAttributeInvalid does not;
    the same holds for [except TimeoutError] on the classes. *)
Theorem C3_Timeout_by_facet (m : string) (p : option structured_data) :
  by_facet (caught tvm_registry (Raise "RPCSessionTimeoutError" m p)) Timeout
    = true
  ∧ by_facet (caught tvm_registry (Raise "OpAttributeInvalid" m p)) Timeout
    = false
  ∧ except_catches tvm_classes (Raise "RPCSessionTimeoutError" m p)
      "TimeoutError" = true
  ∧ except_catches tvm_classes (Raise "OpAttributeInvalid" m p)
      "TimeoutError" = false.
Proof. evaluate. Qed.

(** ** The single root *)

Lemma registered_under_root_checked :
  forallb (λ k, Py.issubclass tvm_classes k "TVMError"
                && Py.issubclass tvm_classes k "RuntimeError")
          (registered_names error_py) = true.
Proof. vm_compute. reflexivity. Qed.

(** C9: TVMError is a subclass of RuntimeError, and every raised instance
    of one of the nine classes of the module is caught by a handler for
    TVMError and by a handler for RuntimeError. *)
Theorem C9_single_root (e : raised_error) :
  err_kind e ∈ registered_names error_py →
  Py.issubclass tvm_classes "TVMError" "RuntimeError" = true
  ∧ except_catches tvm_classes e "TVMError" = true
  ∧ except_catches tvm_classes e "RuntimeError" = true.
Proof.
  intros He. split; [evaluate|].
  pose proof (names_forall _ _ registered_under_root_checked _ He) as H.
  apply andb_true_iff in H. exact H.
Qed.

Lemma C9_single_root_witness :
  let e := Raise "DiagnosticError" "diagnostics were reported" None in
  err_kind e ∈ registered_names error_py
  ∧ Py.issubclass tvm_classes "TVMError" "RuntimeError" = true
  ∧ except_catches tvm_classes e "TVMError" = true
  ∧ except_catches tvm_classes e "RuntimeError" = true.
Proof.
  assert ("DiagnosticError" ∈ registered_names error_py) as H
    by (apply (bool_decide_unpack _); vm_compute; exact I).
  split; [exact H|].
  apply (C9_single_root (Raise "DiagnosticError" "diagnostics were reported" None)).
  exact H.
Defined.

(** ** Depth of the domain hierarchy *)

Lemma registry_depth_checked :
  bool_decide (map_Forall
    (λ (_ : string) d,
       (domain_depth tvm_registry d <=? 2)%nat && parent_is_root tvm_registry d
       = true) tvm_registry) = true.
Proof. vm_compute. reflexivity. Qed.

(** C6: for every registered descriptor the chain of [domain_parent] links
    has at most two levels: the descriptor either has no parent, or its
    parent is registered and has no parent itself.  On the classes, the MRO
    of a registered kind holds at most two registered kinds: the class and
    at most one category above it. *)
Theorem C6_domain_depth (k : string) (d : descriptor) :
  tvm_registry !! k = Some d →
  (domain_depth tvm_registry d ≤ 2)%nat
  ∧ (length (registered_in_mro tvm_classes tvm_registry k) ≤ 2)%nat
  ∧ match domain_parent d with
    | None => True
    | Some p => ∃ dp, tvm_registry !! p = Some dp ∧ domain_parent dp = None
    end.
Proof.
  intros Hk.
  pose proof (registry_forall _ registry_depth_checked k d Hk) as H.
  apply andb_true_iff in H as [Hdepth Hroot].
  apply Nat.leb_le in Hdepth.
  split; [exact Hdepth|].
  split; [by rewrite <- (ancestors_registered_in_mro _ _ Hk)|].
  unfold parent_is_root in Hroot.
  destruct (domain_parent d) as [p|]; [|exact I].
  destruct (tvm_registry !! p) as [dp|]; [|discriminate].
  exists dp. split; [reflexivity|]. by apply bool_decide_eq_true_1 in Hroot.
Qed.

Lemma C6_domain_depth_witness :
  let d := Descriptor "OpNotImplemented" (Some "OpError") {[ NotImplemented ]} in
  tvm_registry !! "OpNotImplemented" = Some d
  ∧ (domain_depth tvm_registry d ≤ 2)%nat
  ∧ (length (registered_in_mro tvm_classes tvm_registry "OpNotImplemented") ≤ 2)%nat
  ∧ ∃ dp, tvm_registry !! "OpError" = Some dp ∧ domain_parent dp = None.
Proof.
  assert (tvm_registry !! "OpNotImplemented"
          = Some (Descriptor "OpNotImplemented" (Some "OpError")
                             {[ NotImplemented ]})) as H
    by (vm_compute; reflexivity).
  split; [exact H|].
  exact (C6_domain_depth "OpNotImplemented" _ H).
Defined.

(** ** What the module registers *)

Lemma registry_kinds_checked :
  bool_decide (map_Forall
    (λ (k : string) (_ : descriptor),
       bool_decide (k ∈ registered_names error_py) = true) tvm_registry) = true.
Proof. vm_compute. reflexivity. Qed.

Lemma registered_names_checked :
  forallb (λ k, bool_decide (is_Some (tvm_registry !! k)))
          (registered_names error_py) = true.
Proof. vm_compute. reflexivity. Qed.

(** C10: exactly nine classes are passed to [register_error]; TVMError is
    not among them; the loaded registry holds exactly those nine kinds, so
    looking up "TVMError" finds nothing and decoding a transfer record of
    that kind yields the fallback value. *)
Theorem C10_registered_kinds :
  registered_names error_py
  = [ "InternalError"; "RPCError"; "RPCSessionTimeoutError"; "OpError";
      "OpNotImplemented"; "OpAttributeRequired"; "OpAttributeInvalid";
      "OpAttributeUnImplemented"; "DiagnosticError" ]
  ∧ length (registered_names error_py) = 9
  ∧ ("TVMError" ∉ registered_names error_py)
  ∧ (∀ k, is_Some (Registry.lookup k tvm_registry)
          ↔ k ∈ registered_names error_py)
  ∧ Registry.lookup "TVMError" tvm_registry = None
  ∧ ∀ m p, decode tvm_registry (Transfer "TVMError" m p)
           = Fallback "TVMError" m.
Proof.
  split; [evaluate|]. split; [evaluate|].
  split; [apply (bool_decide_unpack _); vm_compute; exact I|].
  split; [|split; [evaluate|intros; evaluate]].
  intros k. unfold Registry.lookup. split.
  - intros [d Hk].
    pose proof (registry_forall _ registry_kinds_checked k d Hk) as H.
    by apply bool_decide_eq_true_1 in H.
  - intros Hk.
    pose proof (names_forall _ _ registered_names_checked k Hk) as H.
    by apply bool_decide_eq_true_1 in H.
Qed.

(** ** Registration *)

Lemma register_fresh d reg :
  reg !! kind d = None →
  Registry.register d reg = (Ok tt, <[kind d := d]> reg).
Proof. intros H. unfold Registry.register. by rewrite H. Qed.

Lemma register_identical d reg :
  reg !! kind d = Some d → Registry.register d reg = (Ok tt, reg).
Proof.
  intros H. unfold Registry.register. rewrite H.
  destruct (decide (d = d)); [reflexivity | congruence].
Qed.

Lemma register_conflict d d0 reg :
  reg !! kind d = Some d0 → d0 ≠ d →
  Registry.register d reg = (Err (DuplicateKind (kind d)), reg).
Proof.
  intros H Hne. unfold Registry.register. rewrite H.
  destruct (decide (d0 = d)); [congruence | reflexivity].
Qed.

(** After a successful registration the descriptor is the one looked up. *)
Lemma register_ok_lookup d reg :
  (Registry.register d reg).1 = Ok tt →
  (Registry.register d reg).2 !! kind d = Some d.
Proof.
  unfold Registry.register.
  destruct (reg !! kind d) as [d0|] eqn:E.
  - destruct (decide (d0 = d)) as [->|]; simpl; [by intros _ | discriminate].
  - simpl. intros _. apply lookup_insert_eq.
Qed.

(** Registration never removes or changes an entry. *)
Lemma register_preserves d reg k x :
  reg !! k = Some x → (Registry.register d reg).2 !! k = Some x.
Proof.
  intros Hk. unfold Registry.register.
  destruct (reg !! kind d) as [d0|] eqn:E.
  - by destruct (decide (d0 = d)).
  - simpl. rewrite lookup_insert_ne; [exact Hk | congruence].
Qed.

(** C7: once [register d] has succeeded, registering [d] again succeeds
    and returns the same registry, while registering a different
    descriptor [d'] under the same kind fails with DuplicateKind, returns
    the same registry, and the kind still maps to [d]. *)
Theorem C7_register_idempotent_atomic
  (reg : gmap string descriptor) (d d' : descriptor) :
  (Registry.register d reg).1 = Ok tt →
  kind d' = kind d →
  d' ≠ d →
  let reg1 := (Registry.register d reg).2 in
  Registry.register d reg1 = (Ok tt, reg1)
  ∧ Registry.register d' reg1 = (Err (DuplicateKind (kind d')), reg1)
  ∧ Registry.lookup (kind d) (Registry.register d' reg1).2 = Some d.
Proof.
  intros Hok Hkind Hne reg1.
  pose proof (register_ok_lookup d reg Hok) as Hlook. fold reg1 in Hlook.
  assert (Registry.register d' reg1 = (Err (DuplicateKind (kind d')), reg1)) as Hc.
  { apply (register_conflict d' d); [by rewrite Hkind | congruence]. }
  split; [by apply register_identical|].
  split; [exact Hc|].
  rewrite Hc. exact Hlook.
Qed.

Lemma C7_register_idempotent_atomic_witness :
  let d := Descriptor "OpError" None ∅ in
  let d' := Descriptor "OpError" None {[ Timeout ]} in
  let reg1 := (Registry.register d ∅).2 in
  (Registry.register d ∅).1 = Ok tt
  ∧ Registry.register d reg1 = (Ok tt, reg1)
  ∧ Registry.register d' reg1 = (Err (DuplicateKind "OpError"), reg1)
  ∧ Registry.lookup "OpError" (Registry.register d' reg1).2 = Some d.
Proof.
  split; [reflexivity|].
  apply (C7_register_idempotent_atomic ∅ (Descriptor "OpError" None ∅)
           (Descriptor "OpError" None {[ Timeout ]})).
  - reflexivity.
  - reflexivity.
  - intros H. apply (f_equal facets) in H. simpl in H.
    assert (Timeout ∈ (∅ : gset Facet)) as Hin
      by (rewrite <- H; apply elem_of_singleton; reflexivity).
    exact (not_elem_of_empty _ Hin).
Defined.

(** ** Decoding *)

(** C8: [decode] is a total function; on a transfer record whose kind is
    not in the registry it returns the fallback value, which carries the
    raw kind and the transmitted message unchanged and matches no category
    and no facet. *)
Theorem C8_decode_unknown_kind (reg : gmap string descriptor) (t : transfer) :
  Registry.lookup (t_kind t) reg = None →
  decode reg t = Fallback (t_kind t) (t_message t)
  ∧ value_kind (decode reg t) = t_kind t
  ∧ value_message (decode reg t) = t_message t
  ∧ (∀ category, by_category reg (decode reg t) category = false)
  ∧ (∀ f, by_facet (decode reg t) f = false).
Proof.
  intros H. unfold decode. rewrite H. repeat split; reflexivity.
Qed.

Lemma C8_decode_unknown_kind_witness :
  let t := Transfer "UnknownXYZ" "something failed" None in
  Registry.lookup "UnknownXYZ" tvm_registry = None
  ∧ decode tvm_registry t = Fallback "UnknownXYZ" "something failed"
  ∧ value_kind (decode tvm_registry t) = "UnknownXYZ"
  ∧ value_message (decode tvm_registry t) = "something failed"
  ∧ (∀ category, by_category tvm_registry (decode tvm_registry t) category = false)
  ∧ (∀ f, by_facet (decode tvm_registry t) f = false).
Proof.
  assert (Registry.lookup "UnknownXYZ" tvm_registry = None) as H
    by (vm_compute; reflexivity).
  split; [exact H|].
  exact (C8_decode_unknown_kind tvm_registry
           (Transfer "UnknownXYZ" "something failed" None) H).
Defined.

(** ** Matches compose *)

(** In a registry keyed by kind, a registered error matches every category
    on its ancestor chain, every facet it carries, and its exact kind, all
    on the same value. *)
Lemma matches_compose reg k d m p category f :
  well_keyed reg →
  reg !! k = Some d →
  category ∈ ancestors (size reg) reg d →
  f ∈ facets d →
  let v := caught reg (Raise k m p) in
  by_category reg v category = true
  ∧ by_facet v f = true
  ∧ exact_kind v k = true.
Proof.
  intros Hkeyed Hk Hcat Hf v. unfold v.
  rewrite (caught_registered _ _ _ _ _ Hk). simpl.
  split; [by apply bool_decide_eq_true_2|].
  split; [by apply bool_decide_eq_true_2|].
  apply bool_decide_eq_true_2. simpl. by apply Hkeyed.
Qed.

(** C5: on every raised error of kind RPCSessionTimeoutError, by-category
    matching on RPCError, by-facet matching on Timeout and exact-kind
    matching are all true on the same value (and the three corresponding
    [except] clauses all catch it); more generally, for every registered
    kind, every category on its ancestor chain and every facet it carries,
    the three matches hold together. *)
Theorem C5_matches_compose :
  (∀ m p,
     let e := Raise "RPCSessionTimeoutError" m p in
     let v := caught tvm_registry e in
     by_category tvm_registry v "RPCError" = true
     ∧ by_facet v Timeout = true
     ∧ exact_kind v "RPCSessionTimeoutError" = true
     ∧ except_catches tvm_classes e "RPCError" = true
     ∧ except_catches tvm_classes e "TimeoutError" = true
     ∧ except_catches tvm_classes e "RPCSessionTimeoutError" = true)
  ∧ (∀ k d m p category f,
       tvm_registry !! k = Some d →
       category ∈ ancestors (size tvm_registry) tvm_registry d →
       f ∈ facets d →
       let v := caught tvm_registry (Raise k m p) in
       by_category tvm_registry v category = true
       ∧ by_facet v f = true
       ∧ exact_kind v k = true).
Proof.
  split; [intros; evaluate|].
  intros k d m p category f. apply matches_compose.
  exact tvm_registry_well_keyed.
Qed.

Lemma C5_matches_compose_witness :
  let d := Descriptor "RPCSessionTimeoutError" (Some "RPCError") {[ Timeout ]} in
  let v := caught tvm_registry
             (Raise "RPCSessionTimeoutError" "session expired" None) in
  tvm_registry !! "RPCSessionTimeoutError" = Some d
  ∧ "RPCError" ∈ ancestors (size tvm_registry) tvm_registry d
  ∧ Timeout ∈ facets d
  ∧ by_category tvm_registry v "RPCError" = true
  ∧ by_facet v Timeout = true
  ∧ exact_kind v "RPCSessionTimeoutError" = true.
Proof.
  assert (tvm_registry !! "RPCSessionTimeoutError"
          = Some (Descriptor "RPCSessionTimeoutError" (Some "RPCError")
                             {[ Timeout ]})) as H1
    by (vm_compute; reflexivity).
  assert ("RPCError" ∈ ancestors (size tvm_registry) tvm_registry
            (Descriptor "RPCSessionTimeoutError" (Some "RPCError")
                        {[ Timeout ]})) as H2
    by (apply (bool_decide_unpack _); vm_compute; exact I).
  assert (Timeout ∈ facets (Descriptor "RPCSessionTimeoutError"
                              (Some "RPCError") {[ Timeout ]})) as H3
    by (apply (bool_decide_unpack _); vm_compute; exact I).
  split; [exact H1|]. split; [exact H2|]. split; [exact H3|].
  exact (proj2 C5_matches_compose "RPCSessionTimeoutError" _
           "session expired" None "RPCError" Timeout H1 H2 H3).
Defined.

(** ** The attribute facets *)


Lemma OpAttributeRequired_class :
  tvm_classes !! "OpAttributeRequired"
  = Some (Py.ClassObj "OpAttributeRequired" ["OpError"; "AttributeError"]
            ["OpAttributeRequired"; "OpError"; "TVMError"; "RuntimeError";
             "AttributeError"; "Exception"; "BaseException"; "object"]).
Proof. vm_compute. reflexivity. Qed.

Lemma OpAttributeInvalid_class :
  tvm_classes !! "OpAttributeInvalid"
  = Some (Py.ClassObj "OpAttributeInvalid" ["OpError"; "AttributeError"]
            ["OpAttributeInvalid"; "OpError"; "TVMError"; "RuntimeError";
             "AttributeError"; "Exception"; "BaseException"; "object"]).
Proof. vm_compute. reflexivity. Qed.


(** Whatever way facets are derived from the direct bases of a class, the
    two attribute kinds get the same facets: their bases are the same. *)
Lemma attribute_kinds_same_bases {A} (derive : list string → A) :
  (derive ∘ Py.c_bases) <$> (tvm_classes !! "OpAttributeRequired")
  = (derive ∘ Py.c_bases) <$> (tvm_classes !! "OpAttributeInvalid").
Proof.
  rewrite OpAttributeRequired_class, OpAttributeInvalid_class. reflexivity.
Qed.




(** ** Facets shared across kinds *)

Lemma registry_facets_checked :
  bool_decide (map_Forall
    (λ (k : string) d,
       eqb (bool_decide (NotImplemented ∈ facets d))
           (bool_decide (k = "OpNotImplemented")
            || bool_decide (k = "OpAttributeUnImplemented"))
       && eqb (bool_decide (Timeout ∈ facets d))
              (bool_decide (k = "RPCSessionTimeoutError"))
       = true) tvm_registry) = true.
Proof. vm_compute. reflexivity. Qed.

(** C4, as the code has it: among the registered kinds the NotImplemented
    facet is carried by exactly OpNotImplemented and
    OpAttributeUnImplemented, and the Timeout facet by exactly
    RPCSessionTimeoutError; by-facet matching on NotImplemented catches
    every raised error of the two former kinds and by-facet matching on
    Timeout every raised RPCSessionTimeoutError.  The two NotImplemented
    kinds have the same domain parent, OpError; RPCSessionTimeoutError has
    the domain parent RPCError.  The generic classes behind the two facets,
    NotImplementedError and TimeoutError, lie outside every domain
    category: neither is a subclass of any of the four domain roots. *)
Theorem C4_shared_facets (k : string) (d : descriptor) :
  tvm_registry !! k = Some d →
  (NotImplemented ∈ facets d
     ↔ k = "OpNotImplemented" ∨ k = "OpAttributeUnImplemented")
  ∧ (Timeout ∈ facets d ↔ k = "RPCSessionTimeoutError")
  ∧ (∀ m p,
       by_facet (caught tvm_registry (Raise "OpNotImplemented" m p))
                NotImplemented = true
       ∧ by_facet (caught tvm_registry (Raise "OpAttributeUnImplemented" m p))
                  NotImplemented = true
       ∧ by_facet (caught tvm_registry (Raise "RPCSessionTimeoutError" m p))
                  Timeout = true
       ∧ except_catches tvm_classes (Raise "OpNotImplemented" m p)
           "NotImplementedError" = true
       ∧ except_catches tvm_classes (Raise "OpAttributeUnImplemented" m p)
           "NotImplementedError" = true
       ∧ except_catches tvm_classes (Raise "RPCSessionTimeoutError" m p)
           "TimeoutError" = true)
  ∧ domain_parent <$> (tvm_registry !! "OpNotImplemented")
    = Some (Some "OpError")
  ∧ domain_parent <$> (tvm_registry !! "OpAttributeUnImplemented")
    = Some (Some "OpError")
  ∧ domain_parent <$> (tvm_registry !! "RPCSessionTimeoutError")
    = Some (Some "RPCError")
  ∧ Py.issubclass tvm_classes "NotImplementedError" "OpError" = false
  ∧ Py.issubclass tvm_classes "TimeoutError" "RPCError" = false
  ∧ Py.issubclass tvm_classes "NotImplementedError" "InternalError" = false
  ∧ Py.issubclass tvm_classes "NotImplementedError" "RPCError" = false
  ∧ Py.issubclass tvm_classes "NotImplementedError" "DiagnosticError" = false
  ∧ Py.issubclass tvm_classes "TimeoutError" "InternalError" = false
  ∧ Py.issubclass tvm_classes "TimeoutError" "OpError" = false
  ∧ Py.issubclass tvm_classes "TimeoutError" "DiagnosticError" = false
  ∧ domain_roots error_py
    = [ "InternalError"; "RPCError"; "OpError"; "DiagnosticError" ].
Proof.
  intros Hk.
  pose proof (registry_forall _ registry_facets_checked k d Hk) as H.
  apply andb_true_iff in H as [Hn Ht].
  apply eqb_prop in Hn. apply eqb_prop in Ht.
  split.
  { rewrite <- (bool_decide_spec (NotImplemented ∈ facets d)), Hn.
    rewrite orb_True, !bool_decide_spec. reflexivity. }
  split.
  { rewrite <- (bool_decide_spec (Timeout ∈ facets d)), Ht.
    rewrite bool_decide_spec. reflexivity. }
  split; [intros; evaluate|]. evaluate.
Qed.

Lemma C4_shared_facets_witness :
  let d := Descriptor "OpNotImplemented" (Some "OpError") {[ NotImplemented ]} in
  tvm_registry !! "OpNotImplemented" = Some d
  ∧ (NotImplemented ∈ facets d
       ↔ "OpNotImplemented" = "OpNotImplemented"
         ∨ "OpNotImplemented" = "OpAttributeUnImplemented").
Proof.
  assert (tvm_registry !! "OpNotImplemented"
          = Some (Descriptor "OpNotImplemented" (Some "OpError")
                             {[ NotImplemented ]})) as H
    by (vm_compute; reflexivity).
  split; [exact H|].
  exact (proj1 (C4_shared_facets "OpNotImplemented" _ H)).
Defined.

(** OpNotImplemented and OpAttributeUnImplemented are different kinds
    sharing the facet NotImplemented, and they have the same domain
    parent. *)
Lemma C4_counterexample :
  ¬ (∀ k1 k2 d1 d2 f,
       k1 ≠ k2 →
       tvm_registry !! k1 = Some d1 →
       tvm_registry !! k2 = Some d2 →
       f ∈ facets d1 → f ∈ facets d2 →
       domain_parent d1 ≠ domain_parent d2).
Proof.
  intros H.
  apply (H "OpNotImplemented" "OpAttributeUnImplemented"
           (Descriptor "OpNotImplemented" (Some "OpError") {[ NotImplemented ]})
           (Descriptor "OpAttributeUnImplemented" (Some "OpError")
                       {[ NotImplemented ]})
           NotImplemented).
  - discriminate.
  - vm_compute. reflexivity.
  - vm_compute. reflexivity.
  - apply (bool_decide_unpack _). vm_compute. exact I.
  - apply (bool_decide_unpack _). vm_compute. exact I.
  - reflexivity.
Qed.

(** * The class hierarchy as handlers see it *)

Lemma classes_forall (P : string → Py.class_obj → bool) :
  bool_decide (map_Forall (λ k co, P k co = true) tvm_classes) = true →
  ∀ k co, tvm_classes !! k = Some co → P k co = true.
Proof.
  intros H k co Hk. apply bool_decide_eq_true_1 in H. exact (H k co Hk).
Qed.

(** From a checked table to the set of classes a handler catches. *)
Lemma subclass_table (C : string) (l : list string) :
  bool_decide (map_Forall
    (λ (k : string) co,
       eqb (bool_decide (C ∈ Py.c_mro co)) (bool_decide (k ∈ l)) = true)
    tvm_classes) = true →
  forallb (λ k, bool_decide (is_Some (tvm_classes !! k))) l = true →
  ∀ k, Py.issubclass tvm_classes k C = true ↔ k ∈ l.
Proof.
  intros Htable Hbound k. unfold Py.issubclass.
  destruct (tvm_classes !! k) as [co|] eqn:E.
  - pose proof (classes_forall _ Htable k co E) as H. apply eqb_prop in H.
    rewrite H. apply bool_decide_eq_true.
  - split; [intros H; discriminate H|]. intros Hk.
    pose proof (names_forall _ _ Hbound k Hk) as H.
    apply bool_decide_eq_true_1 in H. rewrite E in H.
    destruct H as [? H]. discriminate H.
Qed.

Ltac table := apply subclass_table; vm_compute; reflexivity.

(** The two views computed on the module. *)
Lemma domain_roots_error_py :
  domain_roots error_py
  = [ "InternalError"; "RPCError"; "OpError"; "DiagnosticError" ].
Proof. vm_compute. reflexivity. Qed.

Lemma leaf_classes_error_py :
  leaf_classes error_py
  = [ "InternalError"; "RPCSessionTimeoutError"; "OpNotImplemented";
      "OpAttributeRequired"; "OpAttributeInvalid";
      "OpAttributeUnImplemented"; "DiagnosticError" ].
Proof. vm_compute. reflexivity. Qed.

Lemma roots_disjoint_checked :
  bool_decide (map_Forall
    (λ (_ : string) co,
       forallb (λ c1,
         forallb (λ c2,
           bool_decide (c1 = c2)
           || negb (bool_decide (c1 ∈ Py.c_mro co)
                    && bool_decide (c2 ∈ Py.c_mro co)))
           (domain_roots error_py))
         (domain_roots error_py) = true)
    tvm_classes) = true.
Proof. vm_compute. reflexivity. Qed.

(** X1: the domain roots are pairwise disjoint: a class caught by a handler
    for one of InternalError, RPCError, OpError, DiagnosticError is caught
    by a handler for no other of them. *)
Theorem domain_roots_disjoint (k c1 c2 : string) :
  c1 ∈ domain_roots error_py →
  c2 ∈ domain_roots error_py →
  c1 ≠ c2 →
  Py.issubclass tvm_classes k c1 = true →
  Py.issubclass tvm_classes k c2 = false.
Proof.
  intros H1 H2 Hne. unfold Py.issubclass.
  destruct (tvm_classes !! k) as [co|] eqn:E; [|intros H; discriminate H].
  pose proof (classes_forall _ roots_disjoint_checked k co E) as H.
  rewrite forallb_forall in H.
  apply list_elem_of_In in H1. apply list_elem_of_In in H2.
  specialize (H c1 H1). rewrite forallb_forall in H. specialize (H c2 H2).
  intros Hc1. rewrite Hc1 in H. simpl in H.
  rewrite (bool_decide_eq_false_2 _ Hne) in H. simpl in H.
  by apply negb_true_iff in H.
Qed.

(** X2: [except TVMError] catches exactly the ten classes the module
    defines; no built-in exception class is a TVMError. *)
Theorem TVMError_catches_module (k : string) :
  Py.issubclass tvm_classes k "TVMError" = true ↔ k ∈ module_classes error_py.
Proof. revert k. table. Qed.

(** X3: [except OpError] catches exactly OpError and its four leaves, and
    [except RPCError] exactly RPCError and RPCSessionTimeoutError. *)
Theorem category_handlers (k : string) :
  (Py.issubclass tvm_classes k "OpError" = true
   ↔ k ∈ [ "OpError"; "OpNotImplemented"; "OpAttributeRequired";
           "OpAttributeInvalid"; "OpAttributeUnImplemented" ])
  ∧ (Py.issubclass tvm_classes k "RPCError" = true
     ↔ k ∈ [ "RPCError"; "RPCSessionTimeoutError" ]).
Proof. split; revert k; table. Qed.

(** X4: what the handlers for the generic built-in classes catch:
    TimeoutError and OSError catch, of the module, RPCSessionTimeoutError
    only; NotImplementedError catches OpNotImplemented and
    OpAttributeUnImplemented only; AttributeError catches
    OpAttributeRequired and OpAttributeInvalid only. *)
Theorem generic_handlers (k : string) :
  (Py.issubclass tvm_classes k "TimeoutError" = true
   ↔ k ∈ [ "TimeoutError"; "RPCSessionTimeoutError" ])
  ∧ (Py.issubclass tvm_classes k "OSError" = true
     ↔ k ∈ [ "OSError"; "TimeoutError"; "RPCSessionTimeoutError" ])
  ∧ (Py.issubclass tvm_classes k "NotImplementedError" = true
     ↔ k ∈ [ "NotImplementedError"; "OpNotImplemented";
             "OpAttributeUnImplemented" ])
  ∧ (Py.issubclass tvm_classes k "AttributeError" = true
     ↔ k ∈ [ "AttributeError"; "OpAttributeRequired"; "OpAttributeInvalid" ]).
Proof. repeat split; revert k; table. Qed.

Lemma leaves_checked :
  forallb (λ leaf,
    bool_decide (map_Forall
      (λ (k : string) co,
         eqb (bool_decide (leaf ∈ Py.c_mro co)) (bool_decide (k ∈ [leaf]))
         = true) tvm_classes)
    && bool_decide (is_Some (tvm_classes !! leaf)))
    (leaf_classes error_py) = true.
Proof. vm_compute. reflexivity. Qed.

(** X5: a class that no statement of the module names as a base has no
    subclass: a handler for it catches that class alone. *)
Theorem leaf_catches_only_itself (leaf k : string) :
  leaf ∈ leaf_classes error_py →
  (Py.issubclass tvm_classes k leaf = true ↔ k = leaf).
Proof.
  intros Hleaf.
  pose proof (names_forall _ _ leaves_checked leaf Hleaf) as H.
  apply andb_true_iff in H as [Htable Hbound].
  rewrite (subclass_table leaf [leaf] Htable).
  - apply list_elem_of_singleton.
  - cbn [forallb]. by rewrite Hbound.
Qed.

Lemma leaf_catches_only_itself_witness :
  "DiagnosticError" ∈ leaf_classes error_py
  ∧ (Py.issubclass tvm_classes "TVMError" "DiagnosticError" = true
     ↔ "TVMError" = "DiagnosticError").
Proof.
  assert ("DiagnosticError" ∈ leaf_classes error_py) as H
    by (apply (bool_decide_unpack _); vm_compute; exact I).
  split; [exact H|].
  exact (leaf_catches_only_itself "DiagnosticError" "TVMError" H).
Defined.

Lemma domain_roots_disjoint_witness :
  "OpError" ∈ domain_roots error_py
  ∧ "RPCError" ∈ domain_roots error_py
  ∧ "OpError" ≠ "RPCError"
  ∧ Py.issubclass tvm_classes "OpAttributeInvalid" "OpError" = true
  ∧ Py.issubclass tvm_classes "OpAttributeInvalid" "RPCError" = false.
Proof.
  assert ("OpError" ∈ domain_roots error_py) as H1
    by (apply (bool_decide_unpack _); vm_compute; exact I).
  assert ("RPCError" ∈ domain_roots error_py) as H2
    by (apply (bool_decide_unpack _); vm_compute; exact I).
  assert ("OpError" ≠ "RPCError") as H3 by discriminate.
  assert (Py.issubclass tvm_classes "OpAttributeInvalid" "OpError" = true)
    as H4 by (vm_compute; reflexivity).
  repeat (split; [assumption|]).
  exact (domain_roots_disjoint "OpAttributeInvalid" "OpError" "RPCError"
           H1 H2 H3 H4).
Defined.

(** ** Class statements and the environment *)

Lemma exec_class_classes st d st' :
  exec_class st d = Ok st' →
  ∃ l, classes st'
       = <[Py.cd_name d :=
             Py.ClassObj (Py.cd_name d) (Py.cd_bases d) (Py.cd_name d :: l)]>
           (classes st).
Proof.
  unfold exec_class, bind, Py.make_class, bind.
  destruct (Py.lookup_classes _ _) as [bs|]; [|intros H; discriminate H].
  destruct (Py.merge _) as [[l|]|]; [|intros H; discriminate H|intros H; discriminate H].
  destruct (Py.cd_registered d).
  - destruct (register_error _ _) as [[[]|e] reg']; [|intros H; discriminate H].
    intros [= <-]. by exists l.
  - intros [= <-]. by exists l.
Qed.

Lemma builtins_not_redefined_checked :
  forallb (λ k, bool_decide (k ∉ module_classes error_py)) builtin_classes
  = true.
Proof. vm_compute. reflexivity. Qed.

Lemma exec_module_frame ds k : ∀ st st',
  exec_module st ds = Ok st' → k ∉ module_classes ds →
  classes st' !! k = classes st !! k.
Proof.
  induction ds as [|d ds IH]; intros st st'; simpl.
  - by intros [= <-] _.
  - unfold bind. destruct (exec_class st d) as [st1|] eqn:E; [|intros H; discriminate H].
    intros Hrest Hk. apply not_elem_of_cons in Hk as [Hne Hk].
    rewrite (IH _ _ Hrest Hk).
    destruct (exec_class_classes _ _ _ E) as [l ->].
    by rewrite lookup_insert_ne.
Qed.

(** X7: from any state, a successful import leaves each built-in class the
    module builds on (object, BaseException, Exception, RuntimeError,
    NotImplementedError, AttributeError, OSError, TimeoutError) bound as
    before: no class statement of the module reuses one of their names. *)
Theorem import_keeps_builtins (st st' : state) (k : string) :
  exec_module st error_py = Ok st' →
  k ∈ builtin_classes →
  (k ∉ module_classes error_py) ∧ classes st' !! k = classes st !! k.
Proof.
  intros H Hk.
  pose proof (names_forall _ _ builtins_not_redefined_checked k Hk) as Hn.
  apply bool_decide_eq_true_1 in Hn.
  split; [exact Hn|]. by apply (exec_module_frame _ _ _ _ H).
Qed.

Lemma exec_module_binds ds : ∀ st st' d,
  exec_module st ds = Ok st' →
  NoDup (module_classes ds) →
  d ∈ ds →
  ∃ l, classes st' !! Py.cd_name d
       = Some (Py.ClassObj (Py.cd_name d) (Py.cd_bases d) (Py.cd_name d :: l)).
Proof.
  induction ds as [|d0 ds IH]; intros st st' d; simpl.
  - intros _ _ Hd. by apply elem_of_nil in Hd.
  - unfold bind. destruct (exec_class st d0) as [st1|] eqn:E; [|intros H; discriminate H].
    intros Hrest Hnd Hd. apply NoDup_cons in Hnd as [Hfresh Hnd].
    apply elem_of_cons in Hd as [->|Hd].
    + rewrite (exec_module_frame _ _ _ _ Hrest Hfresh).
      destruct (exec_class_classes _ _ _ E) as [l ->].
      exists l. apply lookup_insert_eq.
    + by apply (IH _ _ _ Hrest Hnd).
Qed.

(** X8: from any state, after a successful import every class of the
    module is bound under its own name, with the direct bases its statement
    lists and an MRO that starts with the class itself. *)
Theorem import_binds_classes_as_written (st st' : state) (d : Py.class_def) :
  exec_module st error_py = Ok st' →
  d ∈ error_py →
  ∃ l, classes st' !! Py.cd_name d
       = Some (Py.ClassObj (Py.cd_name d) (Py.cd_bases d) (Py.cd_name d :: l)).
Proof.
  intros H Hd. apply (exec_module_binds _ _ _ _ H); [|exact Hd].
  apply (bool_decide_unpack _). vm_compute. exact I.
Qed.

Lemma import_keeps_builtins_witness :
  exec_module initial_state error_py = Ok loaded
  ∧ "TimeoutError" ∈ builtin_classes
  ∧ ("TimeoutError" ∉ module_classes error_py)
  ∧ classes loaded !! "TimeoutError" = classes initial_state !! "TimeoutError".
Proof.
  assert ("TimeoutError" ∈ builtin_classes) as H
    by (apply (bool_decide_unpack _); vm_compute; exact I).
  split; [exact load_ok|]. split; [exact H|].
  exact (import_keeps_builtins initial_state loaded "TimeoutError" load_ok H).
Defined.

Lemma import_binds_classes_as_written_witness :
  let d := Py.ClassDef "RPCSessionTimeoutError" ["RPCError"; "TimeoutError"]
                       true in
  exec_module initial_state error_py = Ok loaded
  ∧ d ∈ error_py
  ∧ ∃ l, classes loaded !! "RPCSessionTimeoutError"
         = Some (Py.ClassObj "RPCSessionTimeoutError"
                   ["RPCError"; "TimeoutError"]
                   ("RPCSessionTimeoutError" :: l)).
Proof.
  assert (Py.ClassDef "RPCSessionTimeoutError" ["RPCError"; "TimeoutError"]
                      true ∈ error_py) as H
    by (do 3 apply list_elem_of_further; apply list_elem_of_here).
  split; [exact load_ok|]. split; [exact H|].
  exact (import_binds_classes_as_written initial_state loaded _ load_ok H).
Defined.

(** X9: executing the statements in source order over the built-in
    classes succeeds, and the five classes with two bases get the
    linearisations below: the class, its domain base and TVMError come
    before the generic base. *)
Theorem import_linearisations :
  is_ok (exec_module initial_state error_py) = true
  ∧ Py.c_mro <$> tvm_classes !! "RPCSessionTimeoutError"
    = Some [ "RPCSessionTimeoutError"; "RPCError"; "TVMError"; "RuntimeError";
             "TimeoutError"; "OSError"; "Exception"; "BaseException";
             "object" ]
  ∧ Py.c_mro <$> tvm_classes !! "OpNotImplemented"
    = Some [ "OpNotImplemented"; "OpError"; "TVMError";
             "NotImplementedError"; "RuntimeError"; "Exception";
             "BaseException"; "object" ]
  ∧ Py.c_mro <$> tvm_classes !! "OpAttributeUnImplemented"
    = Some [ "OpAttributeUnImplemented"; "OpError"; "TVMError";
             "NotImplementedError"; "RuntimeError"; "Exception";
             "BaseException"; "object" ]
  ∧ Py.c_mro <$> tvm_classes !! "OpAttributeRequired"
    = Some [ "OpAttributeRequired"; "OpError"; "TVMError"; "RuntimeError";
             "AttributeError"; "Exception"; "BaseException"; "object" ]
  ∧ Py.c_mro <$> tvm_classes !! "OpAttributeInvalid"
    = Some [ "OpAttributeInvalid"; "OpError"; "TVMError"; "RuntimeError";
             "AttributeError"; "Exception"; "BaseException"; "object" ].
Proof. evaluate. Qed.
